(** * DICOM scout-view modulation visualizer and CT-Expo preprocessor

    A shallow embedding of [dicom_scout_modulation_visualizer.py] and
    [dicom_ct_expo_preprocessor.py], and the properties of their
    position accumulation, sorting, scout geometry, classification and
    batch collection.

    Python [float]s are IEEE 754 binary64 numbers: they are modelled by
    Rocq's primitive floats, whose operations are the same binary64
    operations.  Python exceptions are modelled by an error monad. *)

From Stdlib Require Import ZArith List String Ascii Bool Lia Floats.
From Stdlib Require Import Permutation Sorted.
Import ListNotations.

Local Open Scope string_scope.
Local Open Scope list_scope.

(** ** Exceptions and the error monad *)

(** The exception classes the two scripts can meet.  [AttributeError]
    carries the name of the attribute that is absent from the data set;
    [InvalidDicomError] and [FileNotFoundError] are what [pydicom.dcmread]
    raises on a file it cannot read. *)
Inductive exception : Type :=
| AttributeError (name : string)
| ZeroDivisionError
| ValueError (msg : string)
| InvalidDicomError (msg : string)
| FileNotFoundError (msg : string).

Inductive result (A : Type) : Type :=
| Ok (a : A)
| Raise (e : exception).

Arguments Ok {A} a.
Arguments Raise {A} e.

Definition bind {A B} (m : result A) (k : A -> result B) : result B :=
  match m with
  | Ok a => k a
  | Raise e => Raise e
  end.

Notation "x <- m ;; k" := (bind m (fun x => k))
  (at level 61, m at next level, right associativity).

(** The specification's [MissingFieldError] is Python's [AttributeError]:
    a required attribute is absent when a computation needs it. *)
Definition is_MissingFieldError (e : exception) : bool :=
  match e with
  | AttributeError _ => true
  | _ => false
  end.

(** ** Numbers *)

(** Conversion of a Python [int] to [float], as CPython does it when an
    [int] meets a [float] in [*] or [/]: the nearest binary64 number,
    ties to even.  (The integers of a data set are 16-bit [US] and
    12-character [IS] values, far from the overflow CPython reports.) *)
Definition float_of_int (z : Z) : float :=
  SF2Prim (binary_normalize prec emax z 0 false).

(** [float / int]: the divisor is converted, and a zero divisor raises.
    (CPython tests the converted divisor; an [int] converts to [0.0] only
    when it is [0].) *)
Definition truediv (a : float) (b : Z) : result float :=
  if (b =? 0)%Z then Raise ZeroDivisionError
  else Ok (a / float_of_int b)%float.

(** ** Strings *)

(** [str.lower] on the characters A to Z; the two marker phrases of
    [is_scout] are made of ASCII letters and a space only. *)
Definition lower_ascii (c : ascii) : ascii :=
  let n := nat_of_ascii c in
  if (65 <=? n)%nat && (n <=? 90)%nat then ascii_of_nat (n + 32) else c.

Fixpoint lower (s : string) : string :=
  match s with
  | EmptyString => EmptyString
  | String c s' => String (lower_ascii c) (lower s')
  end.

(** [sub in s] *)
Fixpoint contains (sub s : string) : bool :=
  if prefix sub s then true
  else match s with
       | EmptyString => false
       | String _ s' => contains sub s'
       end.

(** [s.endswith(suffix)] *)
Definition endswith (s suffix : string) : bool :=
  let n := String.length s in
  let m := String.length suffix in
  (m <=? n)%nat && String.eqb (substring (n - m) m s) suffix.

(** ** Data sets *)

(** A 2-D [numpy] array: its shape and its entries. *)
Record ndarray : Type := mk_ndarray {
  shape : nat * nat;
  item : nat -> nat -> Z
}.

(** [np.rot90]: a quarter turn counter-clockwise, [(r, c)] becomes
    [(c, r)] and entry [(i, j)] is the old entry [(j, c - 1 - i)]. *)
Definition rot90 (a : ndarray) : ndarray :=
  let '(r, c) := shape a in
  mk_ndarray (c, r) (fun i j => item a j (c - 1 - i)%nat).

(** What [pydicom.dcmread] returns, with the attributes the two scripts
    read.  An attribute absent from the file is [None].  Values have the
    Python type pydicom gives to the attribute's value representation:
    [DS] and [FD] are [float], [IS] and [US] are [int], [ImagePositionPatient]
    is a 3-vector and [PixelSpacing] a pair. *)
Record FileDataset : Type := mk_FileDataset {
  SeriesDescription : option string;
  SliceThickness : option float;
  SpacingBetweenSlices : option float;
  ImagePositionPatient : option (float * float * float);
  XRayTubeCurrent : option Z;
  RevolutionTime : option float;
  Rows : option Z;
  PixelSpacing : option (float * float);
  PatientID : option string;
  StudyDate : option string;
  Modality : option string;
  KVP : option float;
  ExposureTime : option Z;
  Manufacturer : option string
}.

(** [ds.Name]: raises [AttributeError] when the attribute is absent. *)
Definition attr {A} (name : string) (field : option A) : result A :=
  match field with
  | Some v => Ok v
  | None => Raise (AttributeError name)
  end.

(** [getattr(ds, "Name", default)] *)
Definition getattr {A} (field : option A) (default : A) : A :=
  match field with
  | Some v => v
  | None => default
  end.

(** ** The scout-view visualizer *)

Module Visualizer.

(** The body of the [try] of [is_scout]. *)
Definition is_scout_try (ds : FileDataset) : result bool :=
  s <- attr "SeriesDescription" (SeriesDescription ds) ;;
  let series_description := lower s in
  Ok (contains "scout face" series_description
      || contains "profil" series_description).

(** [is_scout]: the [except AttributeError] clause returns [False]; any
    other exception would propagate. *)
Definition is_scout (ds : FileDataset) : result bool :=
  match is_scout_try ds with
  | Ok b => Ok b
  | Raise (AttributeError _) => Ok false
  | Raise e => Raise e
  end.

(** [calculate_scout_positions] *)
Definition calculate_scout_positions (scout_ds : FileDataset)
  : result (float * float * float) :=
  scout_length <- attr "SliceThickness" (SliceThickness scout_ds) ;;
  ipp <- attr "ImagePositionPatient" (ImagePositionPatient scout_ds) ;;
  let z_start := snd ipp in
  let z_end := (z_start - scout_length)%float in
  rows <- attr "Rows" (Rows scout_ds) ;;
  z_spacing_corrected <- truediv scout_length rows ;;
  Ok (z_start, z_end, z_spacing_corrected).

Section WithFiles.

(** The files on disk, as [pydicom.dcmread] sees them. *)
Variable dcmread : string -> result FileDataset.

(** One iteration of the loop of [extract_dicom_data], on the state
    [(data, current_position)]. *)
Definition loop_body (st : list (float * float) * option float) (file : string)
  : result (list (float * float) * option float) :=
  let '(data, current_position) := st in
  ds <- dcmread file ;;
  scout <- is_scout ds ;;
  if scout then Ok st
  else
    slice_thickness <- attr "SliceThickness" (SliceThickness ds) ;;
    let spacing_between_slices :=
      getattr (SpacingBetweenSlices ds) slice_thickness in
    current_position <-
      match current_position with
      | None =>
          ipp <- attr "ImagePositionPatient" (ImagePositionPatient ds) ;;
          Ok (snd ipp)
      | Some p => Ok (p - slice_thickness)%float
      end ;;
    tube_current <- attr "XRayTubeCurrent" (XRayTubeCurrent ds) ;;
    revolution_time <- attr "RevolutionTime" (RevolutionTime ds) ;;
    let mAs := (float_of_int tube_current * revolution_time)%float in
    Ok (data ++ [(current_position, mAs)], Some current_position).

(** The [for file in dicom_files] loop. *)
Fixpoint for_each (st : list (float * float) * option float)
  (dicom_files : list string)
  : result (list (float * float) * option float) :=
  match dicom_files with
  | [] => Ok st
  | file :: rest => st' <- loop_body st file ;; for_each st' rest
  end.

(** The list [data] when the loop ends, before it is sorted. *)
Definition accumulate (dicom_files : list string)
  : result (list (float * float)) :=
  st <- for_each ([], None) dicom_files ;;
  Ok (fst st).

(** The data sets of the non-scout files of the input, in input order:
    the slice records. *)
Fixpoint slice_records (dicom_files : list string) : list FileDataset :=
  match dicom_files with
  | [] => []
  | file :: rest =>
      match dcmread file with
      | Ok ds =>
          match is_scout ds with
          | Ok false => ds :: slice_records rest
          | _ => slice_records rest
          end
      | Raise _ => slice_records rest
      end
  end.

(** Python's [sorted(l, key=key)]: a stable sort that compares keys with
    [<] only.  It is written here as an insertion sort: an element goes
    before the first element of the sorted rest whose key is not strictly
    smaller, so elements whose keys do not compare as smaller keep their
    input order.  (Where [<] orders the keys, as it does on floats that
    are not NaN, a list has one stable sorting, whatever the algorithm.) *)
Section Sorted.

Context {A K : Type}.
Variable key : A -> K.
Variable lt : K -> K -> bool.

Fixpoint insort (x : A) (l : list A) : list A :=
  match l with
  | [] => [x]
  | y :: l' => if lt (key y) (key x) then y :: insort x l' else x :: y :: l'
  end.

Definition sorted (l : list A) : list A := fold_right insort [] l.

(** A list never steps down when no element is strictly smaller than
    the one before it. *)
Definition no_descent (a b : A) : Prop := lt (key b) (key a) = false.

End Sorted.

(** [extract_dicom_data]: [sorted(data, key=lambda x: x[0])[::-1]] *)
Definition extract_dicom_data (dicom_files : list string)
  : result (list (float * float)) :=
  data <- accumulate dicom_files ;;
  Ok (rev (sorted fst PrimFloat.ltb data)).

End WithFiles.

(** The positions that follow [z] when the thicknesses [ts] are taken
    off one after the other: [z - t1], [(z - t1) - t2], ... *)
Fixpoint cumulative (z : float) (ts : list float) : list float :=
  match ts with
  | [] => []
  | t :: ts' => (z - t)%float :: cumulative (z - t)%float ts'
  end.

(** The exposure the loop computes for a slice record. *)
Definition exposure_of (ds : FileDataset) (mAs : float) : Prop :=
  exists tube_current revolution_time,
    XRayTubeCurrent ds = Some tube_current /\
    RevolutionTime ds = Some revolution_time /\
    mAs = (float_of_int tube_current * revolution_time)%float.

(** [trace p slices out]: starting from the position [p] ([None] before
    the first slice), the slice records [slices] contribute the pairs
    [out] to [data]. *)
Inductive trace : option float -> list FileDataset -> list (float * float) -> Prop :=
| trace_nil p : trace p [] []
| trace_first ds rest out t x y z mAs :
    SliceThickness ds = Some t ->
    ImagePositionPatient ds = Some (x, y, z) ->
    exposure_of ds mAs ->
    trace (Some z) rest out ->
    trace None (ds :: rest) ((z, mAs) :: out)
| trace_next p ds rest out t mAs :
    SliceThickness ds = Some t ->
    exposure_of ds mAs ->
    trace (Some (p - t)%float) rest out ->
    trace (Some p) (ds :: rest) (((p - t)%float, mAs) :: out).

(** [ds] with its [SpacingBetweenSlices] replaced. *)
Definition with_spacing (spacing : option float) (ds : FileDataset) : FileDataset :=
  mk_FileDataset (SeriesDescription ds) (SliceThickness ds) spacing
    (ImagePositionPatient ds) (XRayTubeCurrent ds) (RevolutionTime ds)
    (Rows ds) (PixelSpacing ds) (PatientID ds) (StudyDate ds) (Modality ds)
    (KVP ds) (ExposureTime ds) (Manufacturer ds).

(** The unpacking of [zip] over the starred [intensity_data] into
    [positions, intensities]: it fails on an empty list. *)
Definition unzip_pairs (intensity_data : list (float * float))
  : result (list float * list float) :=
  match intensity_data with
  | [] => Raise (ValueError "not enough values to unpack (expected 2, got 0)")
  | _ => Ok (map fst intensity_data, map snd intensity_data)
  end.

(** What [plot_scoutview_with_modulation] hands to matplotlib: the image
    and extent of [plt.imshow] and the two coordinate lists of
    [plt.plot].  The extent is [left, right, bottom, top]. *)
Record figure : Type := mk_figure {
  imshow_image : ndarray;
  imshow_extent : float * float * float * float;
  plot_positions : list float;
  plot_intensities : list float
}.

(** [plot_scoutview_with_modulation] *)
Definition plot_scoutview_with_modulation (scoutview : ndarray)
  (scout_ds : FileDataset) (intensity_data : list (float * float))
  : result figure :=
  geometry <- calculate_scout_positions scout_ds ;;
  let '(z_start, z_end, z_spacing) := geometry in
  let cols := snd (shape scoutview) in
  pixel_spacing <- attr "PixelSpacing" (PixelSpacing scout_ds) ;;
  let x_spacing := snd pixel_spacing in
  let scoutview_rotated := rot90 scoutview in
  let extent :=
    (z_start, z_end, 0%float,
     (float_of_int (Z.of_nat cols) * x_spacing)%float) in
  unzipped <- unzip_pairs intensity_data ;;
  let '(positions, intensities) := unzipped in
  Ok (mk_figure scoutview_rotated extent positions intensities).

End Visualizer.

(** ** The CT-Expo preprocessor *)

Module Preprocessor.

(** [is_dicom_file] *)
Definition is_dicom_file (filename : string) : bool :=
  endswith (lower filename) ".dcm".

(** [os.path.join(root, file)] on POSIX paths. *)
Definition path_join (root file : string) : string :=
  if prefix "/" file then file
  else if String.eqb root "" || endswith root "/" then root ++ file
  else root ++ "/" ++ file.

(** The value of a header attribute; [csv] writes its [str]. *)
Inductive value : Type :=
| VStr (s : string)
| VInt (z : Z)
| VFloat (f : float).

(** [dicom_data.get(name, 'Unknown')] *)
Definition get {A} (inj : A -> value) (field : option A) : value :=
  match field with
  | Some v => inj v
  | None => VStr "Unknown"
  end.

(** The dictionary [dicom_info], in insertion order. *)
Definition dicom_info (dicom_data : FileDataset) : list (string * value) :=
  [ ("PatientID", get VStr (PatientID dicom_data));
    ("StudyDate", get VStr (StudyDate dicom_data));
    ("Modality", get VStr (Modality dicom_data));
    ("KVP", get VFloat (KVP dicom_data));
    ("XRayTubeCurrent", get VInt (XRayTubeCurrent dicom_data));
    ("ExposureTime", get VInt (ExposureTime dicom_data));
    ("SliceThickness", get VFloat (SliceThickness dicom_data));
    ("Manufacturer", get VStr (Manufacturer dicom_data)) ].

(** [str(e)] of a caught exception. *)
Definition exception_str (e : exception) : string :=
  match e with
  | AttributeError name =>
      "'FileDataset' object has no attribute '" ++ name ++ "'"
  | ZeroDivisionError => "float division by zero"
  | ValueError msg | InvalidDicomError msg | FileNotFoundError msg => msg
  end.

(** The line printed for a file that could not be read. *)
Definition could_not_read (file_path : string) (e : exception) : string :=
  "Could not read " ++ file_path ++ ": " ++ exception_str e.

(** A CSV file as [csv.DictWriter] writes it: the header row, then one
    row of values per dictionary. *)
Record csv_file : Type := mk_csv_file {
  header : list string;
  data_rows : list (list value)
}.

Fixpoint lookup (k : string) (d : list (string * value)) : option value :=
  match d with
  | [] => None
  | (k', v) :: d' => if String.eqb k k' then Some v else lookup k d'
  end.

(** [writer.writerow(d)]: the values of [d] in the order of [fieldnames]. *)
Definition row_of (fieldnames : list string) (d : list (string * value))
  : list value :=
  map (fun k => match lookup k d with Some v => v | None => VStr "" end)
      fieldnames.

(** What a run leaves behind: the lines printed and the file written. *)
Record outcome : Type := mk_outcome {
  stdout : list string;
  written : option (string * csv_file)
}.

Section WithFiles.

(** The directory tree as [os.walk] yields it, [(root, dirs, files)] per
    directory, and the files as [pydicom.dcmread] sees them. *)
Variable walk : string -> list (string * list string * list string).
Variable dcmread : string -> result FileDataset.

(** The paths the loops try to read: the files named [*.dcm], in the
    order of the walk. *)
Definition candidates (directory : string) : list string :=
  flat_map
    (fun entry : string * list string * list string =>
       let '(root, _, files) := entry in
       map (path_join root) (filter is_dicom_file files))
    (walk directory).

(** The data sets of the candidates that were read. *)
Definition read_ok (directory : string) : list FileDataset :=
  flat_map
    (fun file_path =>
       match dcmread file_path with Ok d => [d] | Raise _ => [] end)
    (candidates directory).

(** The candidates whose read raised, with the exception. *)
Definition read_failed (directory : string) : list (string * exception) :=
  flat_map
    (fun file_path =>
       match dcmread file_path with Ok _ => [] | Raise e => [(file_path, e)] end)
    (candidates directory).

(** The body of [for file in files], on the state
    [(dicom_info_list, printed lines)]. *)
Definition visit (root : string)
  (st : list (list (string * value)) * list string) (file : string)
  : list (list (string * value)) * list string :=
  let '(dicom_info_list, out) := st in
  if negb (is_dicom_file file) then st
  else
    let file_path := path_join root file in
    match dcmread file_path with
    | Ok dicom_data => (dicom_info_list ++ [dicom_info dicom_data], out)
    | Raise e =>
        (dicom_info_list, out ++ [could_not_read file_path e])
    end.

(** The two nested loops over [os.walk(directory)]. *)
Definition collect (directory : string)
  : list (list (string * value)) * list string :=
  fold_left
    (fun st entry =>
       let '(root, _, files) := entry in fold_left (visit root) files st)
    (walk directory) ([], []).

(** [extract_dicom_info] *)
Definition extract_dicom_info (directory output_csv : string) : outcome :=
  let '(dicom_info_list, out) := collect directory in
  match dicom_info_list with
  | first :: _ =>
      let fieldnames := map fst first in
      let file := mk_csv_file fieldnames (map (row_of fieldnames) dicom_info_list) in
      mk_outcome
        (out ++ [("Extracted DICOM data has been saved to " ++ output_csv)%string])
        (Some (output_csv, file))
  | [] =>
      mk_outcome
        (out ++ ["No valid DICOM files were found. CSV file not created."])
        None
  end.

End WithFiles.

End Preprocessor.

(** ** Variations of the input *)

Module Inputs.

Import Visualizer.

(** [ds] with its [ImagePositionPatient] replaced. *)
Definition with_position (position : option (float * float * float))
  (ds : FileDataset) : FileDataset :=
  mk_FileDataset (SeriesDescription ds) (SliceThickness ds)
    (SpacingBetweenSlices ds) position (XRayTubeCurrent ds)
    (RevolutionTime ds) (Rows ds) (PixelSpacing ds) (PatientID ds)
    (StudyDate ds) (Modality ds) (KVP ds) (ExposureTime ds) (Manufacturer ds).

Section WithFiles.

Variable dcmread : string -> result FileDataset.

(** A file the loop of [extract_dicom_data] does not skip: one that is
    not read as a scout view. *)
Definition not_scout_file (file : string) : bool :=
  match dcmread file with
  | Ok ds => match is_scout ds with Ok true => false | _ => true end
  | Raise _ => true
  end.

End WithFiles.

End Inputs.

(** ** Sample studies *)

Module Samples.

(** A data set with no attribute at all. *)
Definition blank : FileDataset :=
  mk_FileDataset None None None None None None None None
                 None None None None None None.

(** An axial slice. *)
Definition slice (thickness z : float) (tube_current : Z)
  (revolution_time : float) : FileDataset :=
  mk_FileDataset (Some "Thorax 2.0 B31f") (Some thickness) None
    (Some (0, 0, z)%float) (Some tube_current) (Some revolution_time)
    None None (Some "P01") (Some "20241127") (Some "CT") (Some 120%float)
    (Some 500%Z) (Some "ACME").

(** A scout view of 200 rows, 400 mm long, starting at z = 50. *)
Definition scout : FileDataset :=
  mk_FileDataset (Some "SCOUT FACE") (Some 400%float) None
    (Some (0, 0, 50)%float) None None (Some 200%Z) (Some (1, 0.5)%float)
    (Some "P01") (Some "20241127") (Some "CT") None None (Some "ACME").

(** The same description in another case, on an otherwise empty data set. *)
Definition scout_lowercase : FileDataset :=
  mk_FileDataset (Some "Scout Face") None None None None None None None
                 None None None None None None.

(** A scout view whose [Rows] is zero. *)
Definition scout_no_rows : FileDataset :=
  mk_FileDataset (Some "SCOUT FACE") (Some 400%float) None
    (Some (0, 0, 50)%float) None None (Some 0%Z) (Some (1, 0.5)%float)
    None None None None None None.

(** A slice without [SliceThickness]. *)
Definition slice_no_thickness : FileDataset :=
  mk_FileDataset (Some "Thorax 2.0 B31f") None None
    (Some (0, 0, 100)%float) (Some 200%Z) (Some 0.5%float)
    None None None None None None None None.

(** The pixels of the scout view: 200 rows of 3 columns. *)
Definition scout_pixels : ndarray := mk_ndarray (200, 3)%nat (fun _ _ => 0%Z).

(** A folder: three slices 2 mm apart from z = 100 at 200 mA and 0.5 s,
    a scout view, a slice so thin that its position rounds to the one
    before it, a slice without thickness, and a file that is not DICOM. *)
Definition disk (file : string) : result FileDataset :=
  if String.eqb file "study/1.dcm" then Ok (slice 2 100 200 0.5)
  else if String.eqb file "study/2.dcm" then Ok (slice 2 100 200 0.5)
  else if String.eqb file "study/3.dcm" then Ok (slice 2 100 200 0.5)
  else if String.eqb file "study/scout.dcm" then Ok scout
  else if String.eqb file "study/thin.dcm" then Ok (slice 0x1p-60 100 100 0.5)
  else if String.eqb file "study/bad.dcm" then Ok slice_no_thickness
  else if String.eqb file "study/corrupt.dcm" then
    Raise (InvalidDicomError "File is missing DICOM File Meta Information header")
  else Raise (FileNotFoundError file).

(** The folder as [os.walk] lists it. *)
Definition tree (directory : string)
  : list (string * list string * list string) :=
  if String.eqb directory "study" then
    [("study", [], ["1.dcm"; "2.dcm"; "corrupt.dcm"; "notes.txt"])]
  else [].

(** The same folder when nothing in it can be read. *)
Definition broken_tree (directory : string)
  : list (string * list string * list string) :=
  if String.eqb directory "study" then
    [("study", [], ["corrupt.dcm"; "notes.txt"])]
  else [].

(** The file lists handed to [extract_dicom_data]. *)
Definition study_files : list string :=
  ["study/1.dcm"; "study/scout.dcm"; "study/2.dcm"; "study/3.dcm"].

Definition tie_files : list string := ["study/1.dcm"; "study/thin.dcm"].

Definition bad_files : list string :=
  ["study/1.dcm"; "study/bad.dcm"; "study/2.dcm"].

(** The pairs accumulated from [study_files] and from [tie_files]. *)
Definition study_data : list (float * float) :=
  [(100, 100); (98, 100); (96, 100)]%float.

Definition tie_data : list (float * float) := [(100, 100); (100, 50)]%float.

(** What [plot_scoutview_with_modulation] draws for the scout view. *)
Definition overlay : Visualizer.figure :=
  Visualizer.mk_figure (rot90 scout_pixels) (50, -350, 0, 1.5)%float
            [100%float] [100%float].

End Samples.

(** ** A further sample *)

Module Folders.

Import Samples.

(** A slice whose own position, 40, is not where the loop puts it. *)
Definition misplaced_slice : FileDataset :=
  slice 2 40 200 0.5.

End Folders.

(** ** The order of binary64 numbers *)

(** Comparison of IEEE numbers that are not NaN is the lexicographic
    order of a rank: the class (negative infinity, negative, zero,
    positive, positive infinity), then exponent and mantissa. *)
Definition SFnan (a : spec_float) : bool :=
  match a with S754_nan => true | _ => false end.

Definition rank (a : spec_float) : Z * Z * Z :=
  match a with
  | S754_zero _ | S754_nan => (0, 0, 0)
  | S754_infinity s => (if s then -2 else 2, 0, 0)
  | S754_finite s m e => if s then (-1, - e, Z.neg m) else (1, e, Z.pos m)
  end%Z.

Definition lexc (r1 r2 : Z * Z * Z) : comparison :=
  let '(a1, a2, a3) := r1 in
  let '(b1, b2, b3) := r2 in
  match (a1 ?= b1)%Z with
  | Eq => match (a2 ?= b2)%Z with
          | Eq => (a3 ?= b3)%Z
          | c => c
          end
  | c => c
  end.

Definition frank (x : float) : Z * Z * Z := rank (Prim2SF x).

(** * Properties *)

(** ** Facts about the order of binary64 numbers *)

Lemma SFcompare_rank (a b : spec_float) :
  SFcompare a b =
  if SFnan a || SFnan b then None else Some (lexc (rank a) (rank b)).
Proof.
  destruct a as [sa|sa| |sa ma ea], b as [sb|sb| |sb mb eb];
    try reflexivity;
    try (destruct sa; reflexivity); try (destruct sb; reflexivity);
    try (destruct sa, sb; reflexivity).
  destruct sa, sb; try reflexivity; cbn [SFcompare SFnan orb rank lexc].
  all: rewrite ?Z.compare_opp, ?(Z.compare_antisym ea eb);
    destruct (ea ?= eb)%Z; reflexivity.
Qed.

Lemma lexc_Lt r1 r2 :
  lexc r1 r2 = Lt <->
  (let '(a1, a2, a3) := r1 in
   let '(b1, b2, b3) := r2 in
   a1 < b1 \/ a1 = b1 /\ (a2 < b2 \/ a2 = b2 /\ a3 < b3))%Z.
Proof.
  destruct r1 as [[a1 a2] a3], r2 as [[b1 b2] b3]; unfold lexc.
  destruct (Z.compare_spec a1 b1), (Z.compare_spec a2 b2), (Z.compare_spec a3 b3);
    split; intros; try discriminate; try reflexivity; lia.
Qed.

Lemma lexc_Eq r1 r2 : lexc r1 r2 = Eq <-> r1 = r2.
Proof.
  destruct r1 as [[a1 a2] a3], r2 as [[b1 b2] b3]; unfold lexc.
  destruct (Z.compare_spec a1 b1), (Z.compare_spec a2 b2), (Z.compare_spec a3 b3);
    split; intros H'; try discriminate; try reflexivity;
    try (inversion H'; lia); subst; reflexivity.
Qed.

Lemma lexc_Gt r1 r2 : lexc r1 r2 = Gt <-> lexc r2 r1 = Lt.
Proof.
  rewrite lexc_Lt.
  destruct r1 as [[a1 a2] a3], r2 as [[b1 b2] b3]; unfold lexc.
  destruct (Z.compare_spec a1 b1), (Z.compare_spec a2 b2), (Z.compare_spec a3 b3);
    split; intros; try discriminate; try reflexivity; lia.
Qed.

Section FloatOrder.

Local Open Scope float_scope.

Lemma is_nan_SFnan (x : float) : is_nan x = SFnan (Prim2SF x).
Proof.
  unfold is_nan. rewrite FloatAxioms.eqb_spec. unfold SFeqb. rewrite SFcompare_rank.
  destruct (SFnan (Prim2SF x)); simpl; [reflexivity|].
  assert (lexc (rank (Prim2SF x)) (rank (Prim2SF x)) = Eq) as ->
    by (apply lexc_Eq; reflexivity).
  reflexivity.
Qed.

Lemma ltb_rank (x y : float) :
  (x <? y) = true <->
  is_nan x = false /\ is_nan y = false /\ lexc (frank x) (frank y) = Lt.
Proof.
  rewrite FloatAxioms.ltb_spec, !is_nan_SFnan. unfold SFltb, frank. rewrite SFcompare_rank.
  destruct (SFnan (Prim2SF x)), (SFnan (Prim2SF y)); simpl;
    try (split; [discriminate | intros (? & ? & ?); discriminate]).
  destruct (lexc _ _); split; intros; try discriminate; auto; try tauto.
  all: destruct H as (_ & _ & ?); discriminate.
Qed.

Lemma eqb_rank (x y : float) :
  (x =? y) = true <->
  is_nan x = false /\ is_nan y = false /\ frank x = frank y.
Proof.
  rewrite FloatAxioms.eqb_spec, !is_nan_SFnan. unfold SFeqb, frank. rewrite SFcompare_rank.
  destruct (SFnan (Prim2SF x)), (SFnan (Prim2SF y)); simpl;
    try (split; [discriminate | intros (? & ? & ?); discriminate]).
  rewrite <- lexc_Eq.
  destruct (lexc _ _); split; intros; try discriminate; auto; try tauto.
  all: destruct H as (_ & _ & ?); discriminate.
Qed.

Lemma leb_rank (x y : float) :
  (x <=? y) = true <->
  is_nan x = false /\ is_nan y = false /\ lexc (frank y) (frank x) <> Lt.
Proof.
  rewrite FloatAxioms.leb_spec, !is_nan_SFnan. unfold SFleb, frank. rewrite SFcompare_rank.
  destruct (SFnan (Prim2SF x)), (SFnan (Prim2SF y)); simpl;
    try (split; [discriminate | intros (? & ? & ?); discriminate]).
  rewrite <- lexc_Gt.
  destruct (lexc _ _); split; intros; try discriminate; auto; try tauto.
  all: try (repeat split; discriminate).
  all: destruct H as (_ & _ & ?); congruence.
Qed.

Lemma ltb_asym (x y : float) : (x <? y) = true -> (y <? x) = false.
Proof.
  intros H. apply ltb_rank in H. destruct H as (_ & _ & H).
  apply not_true_is_false. intros H'. apply ltb_rank in H'.
  destruct H' as (_ & _ & H').
  apply lexc_Lt in H, H'. destruct (frank x) as [[? ?] ?], (frank y) as [[? ?] ?]. lia.
Qed.

Lemma ltb_eqb_neq (x y p : float) :
  (y <? x) = true -> (x =? p) = true -> (y =? p) = false.
Proof.
  intros H E. apply ltb_rank in H. destruct H as (_ & _ & H).
  apply eqb_rank in E. destruct E as (_ & _ & E).
  apply not_true_is_false. intros H'. apply eqb_rank in H'.
  destruct H' as (_ & _ & H').
  rewrite H', <- E in H. apply lexc_Lt in H.
  destruct (frank x) as [[? ?] ?]. lia.
Qed.

Lemma not_ltb_leb (x y : float) :
  is_nan x = false -> is_nan y = false -> (x <? y) = false -> (y <=? x) = true.
Proof.
  intros Nx Ny H. apply leb_rank. repeat split; trivial.
  intros L. rewrite (proj2 (ltb_rank x y)) in H; [discriminate | auto].
Qed.

Lemma leb_trans (x y z : float) :
  (x <=? y) = true -> (y <=? z) = true -> (x <=? z) = true.
Proof.
  intros H1 H2. apply leb_rank in H1, H2. apply leb_rank.
  destruct H1 as (Nx & Ny & H1), H2 as (_ & Nz & H2). repeat split; trivial.
  rewrite lexc_Lt in *.
  destruct (frank x) as [[? ?] ?], (frank y) as [[? ?] ?], (frank z) as [[? ?] ?]. lia.
Qed.


End FloatOrder.

(** ** Facts about lists *)

Section ListFacts.

Context {A : Type}.

Lemma Sorted_restrict (R R' : A -> A -> Prop) (l : list A) :
  (forall a b, In a l -> In b l -> R a b -> R' a b) ->
  Sorted R l -> Sorted R' l.
Proof.
  intros HR HS. induction HS as [|a l HS IH Hd]; constructor.
  - apply IH. intros x y Hx Hy. apply HR; right; assumption.
  - destruct Hd as [|b l Hab]; constructor.
    apply HR; [left; reflexivity | right; left; reflexivity | exact Hab].
Qed.

Lemma StronglySorted_app (R : A -> A -> Prop) (l1 l2 : list A) :
  StronglySorted R l1 -> StronglySorted R l2 ->
  (forall x y, In x l1 -> In y l2 -> R x y) ->
  StronglySorted R (l1 ++ l2).
Proof.
  intros H1 H2 H12. induction H1 as [|a l1 H1 IH Ha]; simpl; [exact H2|].
  constructor.
  - apply IH. intros x y Hx Hy. apply H12; [right|]; assumption.
  - apply Forall_app. split; [exact Ha|].
    apply Forall_forall. intros y Hy. apply H12; [left; reflexivity | exact Hy].
Qed.

Lemma StronglySorted_rev (R : A -> A -> Prop) (l : list A) :
  StronglySorted R l -> StronglySorted (fun a b => R b a) (rev l).
Proof.
  intros H. induction H as [|a l H IH Ha]; simpl; [constructor|].
  apply StronglySorted_app; [exact IH | repeat constructor |].
  intros x y Hx [<- | []]. apply in_rev in Hx.
  rewrite Forall_forall in Ha. apply Ha, Hx.
Qed.

Lemma filter_rev (f : A -> bool) (l : list A) :
  filter f (rev l) = rev (filter f l).
Proof.
  induction l as [|a l IH]; simpl; [reflexivity|].
  rewrite filter_app, IH. simpl. destruct (f a); simpl.
  - reflexivity.
  - apply app_nil_r.
Qed.

End ListFacts.

(** ** Facts about [sorted] *)

Section SortedFacts.

Context {A K : Type}.
Variable key : A -> K.
Variable lt : K -> K -> bool.

Lemma insort_perm (x : A) (l : list A) :
  Permutation (x :: l) (Visualizer.insort key lt x l).
Proof.
  induction l as [|y l IH]; simpl; [reflexivity|].
  destruct (lt (key y) (key x)); [|reflexivity].
  rewrite perm_swap. constructor. exact IH.
Qed.

Lemma sorted_perm (l : list A) : Permutation l (Visualizer.sorted key lt l).
Proof.
  induction l as [|x l IH]; simpl; [constructor|].
  rewrite <- insort_perm. constructor. exact IH.
Qed.

Local Abbreviation no_descent := (Visualizer.no_descent key lt).

Hypothesis lt_asym : forall x y, lt x y = true -> lt y x = false.

Lemma insort_sorted (x : A) (l : list A) :
  Sorted no_descent l -> Sorted no_descent (Visualizer.insort key lt x l).
Proof.
  induction l as [|y l IH]; intros HS; simpl.
  - repeat constructor.
  - destruct (lt (key y) (key x)) eqn:E.
    + inversion HS as [|? ? HS' Hd]; subst. constructor; [apply IH, HS'|].
      destruct l as [|z l]; simpl.
      * constructor. apply lt_asym, E.
      * destruct (lt (key z) (key x)); constructor.
        -- inversion Hd; assumption.
        -- apply lt_asym, E.
    + constructor; [exact HS|]. constructor. exact E.
Qed.

Lemma sorted_sorted (l : list A) : Sorted no_descent (Visualizer.sorted key lt l).
Proof.
  induction l as [|x l IH]; simpl; [constructor|].
  apply insort_sorted, IH.
Qed.

(** Stability: the elements whose key equals [p] keep their order. *)
Variable eq : K -> K -> bool.
Hypothesis lt_eq : forall x y p, lt y x = true -> eq x p = true -> eq y p = false.

Lemma insort_filter (p : K) (x : A) (l : list A) :
  filter (fun a => eq (key a) p) (Visualizer.insort key lt x l) =
  filter (fun a => eq (key a) p) (x :: l).
Proof.
  induction l as [|y l IH]; [reflexivity|].
  cbn [Visualizer.insort]. destruct (lt (key y) (key x)) eqn:E; [|reflexivity].
  cbn [filter] in *. rewrite IH.
  destruct (eq (key x) p) eqn:Ex; [|reflexivity].
  rewrite (lt_eq _ _ _ E Ex). reflexivity.
Qed.

Lemma sorted_stable (p : K) (l : list A) :
  filter (fun a => eq (key a) p) (Visualizer.sorted key lt l) =
  filter (fun a => eq (key a) p) l.
Proof.
  induction l as [|x l IH]; [reflexivity|].
  cbn [Visualizer.sorted fold_right]. fold (Visualizer.sorted key lt l).
  rewrite insort_filter. cbn [filter]. rewrite IH. reflexivity.
Qed.

End SortedFacts.

(** ** The scout-view visualizer *)

Module VisualizerFacts.

Import Visualizer.

(** [is_scout] never raises. *)
Lemma is_scout_total (ds : FileDataset) : exists b, is_scout ds = Ok b.
Proof.
  unfold is_scout, is_scout_try.
  destruct (SeriesDescription ds); simpl; eauto.
Qed.

Section WithFiles.

Variable dcmread : string -> result FileDataset.

Local Abbreviation loop_body := (loop_body dcmread).
Local Abbreviation for_each := (for_each dcmread).
Local Abbreviation accumulate := (accumulate dcmread).
Local Abbreviation extract_dicom_data := (extract_dicom_data dcmread).
Local Abbreviation slice_records := (slice_records dcmread).

(** One iteration either skips a scout file or appends one pair. *)
Lemma loop_body_inv data cur file st' :
  loop_body (data, cur) file = Ok st' ->
  exists ds, dcmread file = Ok ds /\
    ((is_scout ds = Ok true /\ st' = (data, cur)) \/
     (is_scout ds = Ok false /\
      exists t pos mAs,
        SliceThickness ds = Some t /\
        exposure_of ds mAs /\
        st' = (data ++ [(pos, mAs)], Some pos) /\
        match cur with
        | None => exists x y, ImagePositionPatient ds = Some (x, y, pos)
        | Some p => pos = (p - t)%float
        end)).
Proof.
  unfold Visualizer.loop_body.
  destruct (dcmread file) as [ds|e]; cbn [bind]; [|discriminate].
  destruct (is_scout ds) as [[|]|e] eqn:Hb; cbn [bind]; [| |discriminate].
  - intros [= <-]. exists ds. split; [reflexivity|]. left. split; [exact Hb | reflexivity].
  - destruct (SliceThickness ds) as [t|] eqn:Et; simpl; [|discriminate].
    intros H. exists ds. split; [reflexivity|]. right. split; [exact Hb|].
    destruct cur as [p|]; simpl in H.
    + destruct (XRayTubeCurrent ds) as [tc|] eqn:Etc; simpl in H; [|discriminate].
      destruct (RevolutionTime ds) as [rt|] eqn:Ert; simpl in H; [|discriminate].
      injection H as <-. exists t, (p - t)%float, (float_of_int tc * rt)%float.
      split; [exact Et|]. split; [exists tc, rt; auto|]. split; reflexivity.
    + destruct (ImagePositionPatient ds) as [[[x y] z]|] eqn:Ei; simpl in H; [|discriminate].
      destruct (XRayTubeCurrent ds) as [tc|] eqn:Etc; simpl in H; [|discriminate].
      destruct (RevolutionTime ds) as [rt|] eqn:Ert; simpl in H; [|discriminate].
      injection H as <-. exists t, z, (float_of_int tc * rt)%float.
      split; [exact Et|]. split; [exists tc, rt; auto|].
      split; [reflexivity | exists x, y; reflexivity].
Qed.

(** The loop appends to [data] the trace of the slice records. *)
Lemma for_each_trace files : forall data cur data' cur',
  for_each (data, cur) files = Ok (data', cur') ->
  exists out, data' = data ++ out /\ trace cur (slice_records files) out.
Proof.
  induction files as [|file files IH]; intros data cur data' cur' H.
  - injection H as <- <-. exists []. rewrite app_nil_r. split; [reflexivity | constructor].
  - cbn [Visualizer.for_each] in H.
    destruct (loop_body (data, cur) file) as [st'|e] eqn:Hb; simpl in H; [|discriminate].
    apply loop_body_inv in Hb.
    destruct Hb as (ds & Hr & [(Hs & ->) | (Hs & t & pos & mAs & Ht & Hm & -> & Hp)]);
      cbn [Visualizer.slice_records]; rewrite Hr, Hs.
    + exact (IH _ _ _ _ H).
    + destruct (IH _ _ _ _ H) as (out & -> & Htr).
      exists ((pos, mAs) :: out). rewrite <- app_assoc. split; [reflexivity|].
      destruct cur as [p|].
      * subst pos. eapply trace_next; eassumption.
      * destruct Hp as (x & y & Hp). eapply trace_first; eassumption.
Qed.

Lemma accumulate_trace files data :
  accumulate files = Ok data -> trace None (slice_records files) data.
Proof.
  unfold Visualizer.accumulate.
  destruct (for_each ([], None) files) as [[d c]|e] eqn:H; simpl; [|discriminate].
  intros [= <-]. apply for_each_trace in H. destruct H as (out & -> & H). exact H.
Qed.

Lemma trace_length p slices out : trace p slices out -> List.length out = List.length slices.
Proof. induction 1; simpl; congruence. Qed.

Lemma trace_positions p slices out :
  trace (Some p) slices out ->
  exists ts, map SliceThickness slices = map Some ts /\
             map fst out = cumulative p ts.
Proof.
  remember (Some p) as c eqn:Ec. intros H. revert p Ec.
  induction H as [c | | q ds rest out t mAs Ht Hm H IH]; intros p Ec.
  - exists []. split; reflexivity.
  - discriminate.
  - injection Ec as ->. destruct (IH _ eq_refl) as (ts & Hts & Hpos).
    exists (t :: ts). simpl. rewrite Ht, Hts, Hpos. split; reflexivity.
Qed.

Lemma trace_exposures p slices out :
  trace p slices out -> Forall2 exposure_of slices (map snd out).
Proof. induction 1; simpl; constructor; assumption. Qed.

Lemma trace_thickness p slices out ds :
  trace p slices out -> In ds slices -> SliceThickness ds <> None.
Proof.
  induction 1 as [| ds' rest out t x y z mAs Ht | q ds' rest out t mAs Ht];
    intros Hin; [destruct Hin | |];
    (destruct Hin as [<- | Hin]; [congruence | auto]).
Qed.

Lemma slice_records_In files file ds :
  In file files -> dcmread file = Ok ds -> is_scout ds = Ok false ->
  In ds (slice_records files).
Proof.
  intros Hin Hr Hs. induction files as [|f files IH]; [destruct Hin|].
  cbn [Visualizer.slice_records]. destruct Hin as [-> | Hin].
  - rewrite Hr, Hs. left. reflexivity.
  - destruct (dcmread f) as [d|]; [|auto].
    destruct (is_scout d) as [[|]|]; auto. right. auto.
Qed.

(** An iteration raises what [dcmread] raised, or an [AttributeError]. *)
Lemma loop_body_raise st file e :
  loop_body st file = Raise e ->
  dcmread file = Raise e \/ is_MissingFieldError e = true.
Proof.
  destruct st as [data cur]. unfold Visualizer.loop_body.
  destruct (dcmread file) as [ds|e']; cbn [bind]; [|intros [= ->]; left; reflexivity].
  destruct (is_scout_total ds) as [b ->]; cbn [bind]. intros H. right. revert H.
  destruct b; [discriminate|].
  destruct (SliceThickness ds); cbn [attr bind]; [|intros [= <-]; reflexivity].
  destruct cur; cbn [bind].
  - destruct (XRayTubeCurrent ds); cbn [attr bind]; [|intros [= <-]; reflexivity].
    destruct (RevolutionTime ds); cbn [attr bind]; [discriminate | intros [= <-]; reflexivity].
  - destruct (ImagePositionPatient ds); cbn [attr bind]; [|intros [= <-]; reflexivity].
    destruct (XRayTubeCurrent ds); cbn [attr bind]; [|intros [= <-]; reflexivity].
    destruct (RevolutionTime ds); cbn [attr bind]; [discriminate | intros [= <-]; reflexivity].
Qed.

Lemma for_each_raise files : forall st e,
  for_each st files = Raise e ->
  (exists file, In file files /\ dcmread file = Raise e) \/
  is_MissingFieldError e = true.
Proof.
  induction files as [|f files IH]; intros st e H; [discriminate|].
  cbn [Visualizer.for_each] in H.
  destruct (loop_body st f) as [st'|e'] eqn:Hb; cbn [bind] in H.
  - destruct (IH _ _ H) as [(file & Hin & Hr) | Hm]; [left | right; exact Hm].
    exists file. split; [right; exact Hin | exact Hr].
  - injection H as ->. destruct (loop_body_raise _ _ _ Hb) as [Hr | Hm]; [left | right; exact Hm].
    exists f. split; [left; reflexivity | exact Hr].
Qed.

(** [SpacingBetweenSlices] is read and never used: the loop runs the
    same on files whose spacing was replaced. *)
Lemma for_each_spacing (respace : string -> FileDataset -> option float) files :
  forall st,
    Visualizer.for_each
      (fun f => ds <- dcmread f ;; Ok (with_spacing (respace f ds) ds)) st files =
    for_each st files.
Proof.
  induction files as [|f files IH]; intros [data cur]; [reflexivity|].
  cbn [Visualizer.for_each].
  assert (Visualizer.loop_body
            (fun f => ds <- dcmread f ;; Ok (with_spacing (respace f ds) ds))
            (data, cur) f = loop_body (data, cur) f) as ->.
  { unfold Visualizer.loop_body. destruct (dcmread f); reflexivity. }
  destruct (loop_body (data, cur) f); cbn [bind]; [apply IH | reflexivity].
Qed.

(** The result of [extract_dicom_data] is the accumulated list, sorted
    and reversed. *)
Lemma extract_accumulate files data :
  accumulate files = Ok data ->
  extract_dicom_data files = Ok (rev (sorted fst PrimFloat.ltb data)).
Proof. unfold Visualizer.extract_dicom_data. intros ->. reflexivity. Qed.

Lemma extract_inv files out :
  extract_dicom_data files = Ok out ->
  exists data, accumulate files = Ok data /\
               out = rev (sorted fst PrimFloat.ltb data).
Proof.
  unfold Visualizer.extract_dicom_data.
  destruct (accumulate files) as [data|]; cbn [bind]; [|discriminate].
  intros [= <-]. exists data. split; reflexivity.
Qed.

Lemma extract_perm files data :
  accumulate files = Ok data ->
  exists out, extract_dicom_data files = Ok out /\ Permutation data out.
Proof.
  intros H. eexists. split; [apply extract_accumulate, H|].
  rewrite <- Permutation_rev. apply sorted_perm.
Qed.

(** The run returns a profile when every file can be read, every slice
    record has its thickness, tube current and revolution time, and the
    first slice record has its position. *)
Lemma for_each_succeeds files : forall data cur,
  (forall f, In f files -> exists ds, dcmread f = Ok ds) ->
  Forall (fun ds => SliceThickness ds <> None /\ XRayTubeCurrent ds <> None /\
                    RevolutionTime ds <> None) (slice_records files) ->
  (cur = None ->
   match slice_records files with
   | [] => True
   | first :: _ => ImagePositionPatient first <> None
   end) ->
  exists st, for_each (data, cur) files = Ok st.
Proof.
  induction files as [|f files IH]; intros data cur Hread Hall Hfirst.
  - eexists. reflexivity.
  - destruct (Hread f (or_introl eq_refl)) as [ds Hds].
    assert (forall g, In g files -> exists d, dcmread g = Ok d) as Hread'
      by (intros g Hg; apply Hread; right; exact Hg).
    cbn [Visualizer.for_each Visualizer.slice_records] in *.
    unfold Visualizer.loop_body. rewrite Hds in *. cbn [bind].
    destruct (is_scout_total ds) as [[|] Hs]; rewrite Hs in *; cbn [bind].
    + apply IH; assumption.
    + inversion Hall as [|? ? (Ht & Hc & Hr) Hall']; subst.
      destruct (SliceThickness ds) as [t|]; [|now elim Ht].
      destruct (XRayTubeCurrent ds) as [tc|]; [|now elim Hc].
      destruct (RevolutionTime ds) as [rt|]; [|now elim Hr].
      destruct cur as [p|]; cbn [attr bind].
      * apply IH; [assumption | assumption | discriminate].
      * destruct (ImagePositionPatient ds) as [ipp|]; [|now elim (Hfirst eq_refl)].
        cbn [attr bind]. apply IH; [assumption | assumption | discriminate].
Qed.

Lemma extract_dicom_data_succeeds files :
  (forall f, In f files -> exists ds, dcmread f = Ok ds) ->
  Forall (fun ds => SliceThickness ds <> None /\ XRayTubeCurrent ds <> None /\
                    RevolutionTime ds <> None) (slice_records files) ->
  match slice_records files with
  | [] => True
  | first :: _ => ImagePositionPatient first <> None
  end ->
  exists out, extract_dicom_data files = Ok out.
Proof.
  intros Hread Hall Hfirst.
  destruct (for_each_succeeds files [] None Hread Hall (fun _ => Hfirst)) as [st Hst].
  unfold Visualizer.extract_dicom_data, Visualizer.accumulate.
  rewrite Hst. cbn [bind]. eexists. reflexivity.
Qed.

(** C1. The positions recorded before sorting are cumulative: the first
    slice record has the third component of its [ImagePositionPatient],
    every later one the position before it minus its own
    [SliceThickness]; replacing any [SpacingBetweenSlices] changes
    nothing. *)
Theorem positions_are_cumulative files data :
  accumulate files = Ok data ->
  match slice_records files with
  | [] => data = []
  | first :: rest =>
      exists x y z0 ts,
        ImagePositionPatient first = Some (x, y, z0) /\
        map SliceThickness rest = map Some ts /\
        map fst data = z0 :: cumulative z0 ts
  end /\
  forall respace : string -> FileDataset -> option float,
    Visualizer.accumulate
      (fun f => ds <- dcmread f ;; Ok (with_spacing (respace f ds) ds)) files =
    Ok data.
Proof.
  intros H. split.
  - apply accumulate_trace in H.
    inversion H as [p Hs Hd | ds rest out t x y z mAs Ht Hi Hm Htr Hs Hd |]; subst.
    + reflexivity.
    + destruct (trace_positions _ _ _ Htr) as (ts & Hts & Hpos).
      exists x, y, z, ts. simpl. rewrite Hpos. auto.
  - intros respace. unfold Visualizer.accumulate.
    rewrite for_each_spacing. exact H.
Qed.

(** C4. The exposure appended for a slice record is the product of its
    [XRayTubeCurrent] and its [RevolutionTime], as the binary64
    multiplication gives it; sorting only reorders the pairs. *)
Theorem exposure_is_product files data :
  accumulate files = Ok data ->
  Forall2 exposure_of (slice_records files) (map snd data) /\
  exists out, extract_dicom_data files = Ok out /\ Permutation data out.
Proof.
  intros H. split; [|apply extract_perm, H].
  eapply trace_exposures, accumulate_trace, H.
Qed.

(** C6. A slice record without [SliceThickness] aborts the whole run: no
    profile is returned, and when every file of the list can be read the
    exception is an [AttributeError]. *)
Theorem missing_thickness_aborts files file ds :
  In file files -> dcmread file = Ok ds -> is_scout ds = Ok false ->
  SliceThickness ds = None ->
  exists e, extract_dicom_data files = Raise e /\
    ((forall f, In f files -> exists d, dcmread f = Ok d) ->
     is_MissingFieldError e = true).
Proof.
  intros Hin Hr Hs Ht.
  unfold Visualizer.extract_dicom_data, Visualizer.accumulate.
  destruct (for_each ([], None) files) as [[d c]|e] eqn:H; cbn [bind].
  - exfalso. destruct (for_each_trace _ _ _ _ _ H) as (out & _ & Htr).
    apply (trace_thickness _ _ _ ds Htr); [|exact Ht].
    eapply slice_records_In; eassumption.
  - exists e. split; [reflexivity|]. intros Hall.
    destruct (for_each_raise _ _ _ H) as [(f & Hf & Hre) | Hm]; [|exact Hm].
    destruct (Hall f Hf) as [d' Hd]. congruence.
Qed.

(** C10. An empty list, or a list of scout files only, gives the empty
    profile; a returned profile has one pair per non-scout record. *)
Theorem profile_length files :
  (files = [] -> extract_dicom_data files = Ok []) /\
  ((forall f, In f files -> exists ds, dcmread f = Ok ds /\ is_scout ds = Ok true) ->
   extract_dicom_data files = Ok []) /\
  (forall out, extract_dicom_data files = Ok out ->
               List.length out = List.length (slice_records files)).
Proof.
  split; [intros ->; reflexivity|]. split.
  - intros Hall.
    assert (forall st, for_each st files = Ok st) as Hst.
    { induction files as [|f files IH]; intros [d c]; [reflexivity|].
      cbn [Visualizer.for_each]. unfold Visualizer.loop_body.
      destruct (Hall f (or_introl eq_refl)) as (ds & -> & Hs). cbn [bind].
      rewrite Hs. cbn [bind]. apply IH. intros g Hg. apply Hall. right. exact Hg. }
    unfold Visualizer.extract_dicom_data, Visualizer.accumulate.
    rewrite Hst. reflexivity.
  - intros out H. apply extract_inv in H. destruct H as (data & H & ->).
    rewrite length_rev.
    rewrite <- (Permutation_length (sorted_perm fst PrimFloat.ltb data)).
    eapply trace_length, accumulate_trace, H.
Qed.

(** C2, as the code has it.  The returned list is the accumulated list
    sorted ascending by a stable sort and then reversed: it holds the same
    pairs, in descending order of position when no position is NaN, and
    the pairs of equal position come out in the reverse of their input
    order. *)
Theorem profile_descending_ties_reversed files data :
  accumulate files = Ok data ->
  exists out,
    extract_dicom_data files = Ok out /\
    out = rev (sorted fst PrimFloat.ltb data) /\
    Permutation data out /\
    ((forall a, In a data -> is_nan (fst a) = false) ->
     StronglySorted (fun a b => (fst b <=? fst a)%float = true) out) /\
    (forall p,
       filter (fun a => (fst a =? p)%float) out =
       rev (filter (fun a => (fst a =? p)%float) data)).
Proof.
  intros H. exists (rev (sorted fst PrimFloat.ltb data)).
  split; [apply extract_accumulate, H|]. split; [reflexivity|].
  split; [rewrite <- Permutation_rev; apply sorted_perm|]. split.
  - intros Hnan.
    apply (StronglySorted_rev (fun a b => (fst a <=? fst b)%float = true)).
    apply Sorted_StronglySorted.
    + intros a b c. apply leb_trans.
    + apply (Sorted_restrict (no_descent fst PrimFloat.ltb)).
      * intros a b Ha Hb Hab. apply not_ltb_leb; [| |exact Hab]; apply Hnan;
          eapply Permutation_in; try eassumption;
          apply Permutation_sym, sorted_perm.
      * apply sorted_sorted. exact ltb_asym.
  - intros p. rewrite filter_rev. f_equal.
    apply (sorted_stable fst PrimFloat.ltb PrimFloat.eqb). exact ltb_eqb_neq.
Qed.

End WithFiles.

(** C3. With [SliceThickness] L, [ImagePositionPatient] ending in z and
    a non-zero [Rows] r, the geometry is (z, z - L, L / r); for L = 400,
    z = 50 and r = 200 it is (50, -350, 2.0). *)
Theorem scout_positions_exact ds L x y z r :
  SliceThickness ds = Some L ->
  ImagePositionPatient ds = Some (x, y, z) ->
  Rows ds = Some r ->
  r <> 0%Z ->
  calculate_scout_positions ds = Ok (z, z - L, L / float_of_int r)%float /\
  (L = 400%float -> z = 50%float -> r = 200%Z ->
   calculate_scout_positions ds = Ok (50, -350, 2)%float).
Proof.
  intros HL Hz Hr Hr0.
  assert (calculate_scout_positions ds = Ok (z, z - L, L / float_of_int r)%float) as E.
  { unfold calculate_scout_positions, truediv. rewrite HL, Hz, Hr. cbn [attr bind snd].
    destruct (Z.eqb_spec r 0); [contradiction | reflexivity]. }
  split; [exact E|]. intros -> -> ->. rewrite E. reflexivity.
Qed.

(** C5, as the code has it.  Without [Rows], or with [Rows] zero, no
    geometry is returned: an absent [Rows] raises an [AttributeError], a
    zero [Rows] on a record that has the two other attributes raises a
    [ZeroDivisionError]. *)
Theorem scout_positions_fail_without_rows ds :
  Rows ds = None \/ Rows ds = Some 0%Z ->
  exists e, calculate_scout_positions ds = Raise e /\
    (Rows ds = None -> is_MissingFieldError e = true) /\
    (Rows ds = Some 0%Z -> SliceThickness ds <> None ->
     ImagePositionPatient ds <> None -> e = ZeroDivisionError).
Proof.
  intros Hr. unfold calculate_scout_positions.
  destruct (SliceThickness ds) as [L|]; cbn [attr bind].
  - destruct (ImagePositionPatient ds) as [ipp|]; cbn [attr bind].
    + destruct Hr as [-> | ->]; cbn [attr bind truediv Z.eqb]; eexists;
        (split; [reflexivity|]); split; intros; (reflexivity || discriminate).
    + eexists. split; [reflexivity|]. split; [reflexivity | intros _ _ Hi; now elim Hi].
  - eexists. split; [reflexivity|]. split; [reflexivity | intros _ Ht; now elim Ht].
Qed.

(** C8. [is_scout] depends on [SeriesDescription] alone, and on it up to
    case: two records whose descriptions are equal once lowered get the
    same answer; a record without description is not a scout view; no
    record makes [is_scout] raise. *)
Theorem classification_by_description ds1 ds2 :
  (option_map lower (SeriesDescription ds1) =
   option_map lower (SeriesDescription ds2) ->
   is_scout ds1 = is_scout ds2) /\
  (SeriesDescription ds1 = None -> is_scout ds1 = Ok false) /\
  (exists b, is_scout ds1 = Ok b).
Proof.
  split; [|split].
  - unfold is_scout, is_scout_try.
    destruct (SeriesDescription ds1), (SeriesDescription ds2);
      cbn [option_map attr bind]; intros [=]; congruence.
  - unfold is_scout, is_scout_try. intros ->. reflexivity.
  - apply is_scout_total.
Qed.

(** C9, as the code has it.  The image handed to [imshow] is the scout
    view turned by [rot90]; its extent runs from [z_start] to [z_end]
    horizontally and from 0 to the number of columns of the scout view
    times the second [PixelSpacing] vertically.  The row spacing of the
    geometry is not used. *)
Theorem overlay_extent scoutview ds intensity_data fig :
  plot_scoutview_with_modulation scoutview ds intensity_data = Ok fig ->
  exists z_start z_end z_spacing row_sp col_sp,
    calculate_scout_positions ds = Ok (z_start, z_end, z_spacing) /\
    PixelSpacing ds = Some (row_sp, col_sp) /\
    imshow_image fig = rot90 scoutview /\
    imshow_extent fig =
      (z_start, z_end, 0%float,
       (float_of_int (Z.of_nat (snd (shape scoutview))) * col_sp)%float) /\
    plot_positions fig = map fst intensity_data /\
    plot_intensities fig = map snd intensity_data.
Proof.
  unfold plot_scoutview_with_modulation.
  destruct (calculate_scout_positions ds) as [[[zs ze] sp]|]; cbn [bind]; [|discriminate].
  destruct (PixelSpacing ds) as [[a b]|]; cbn [attr bind]; [|discriminate].
  destruct intensity_data as [|pr l]; cbn [unzip_pairs bind]; [discriminate|].
  intros [= <-]. exists zs, ze, sp, a, b. repeat split; reflexivity.
Qed.

End VisualizerFacts.

(** ** The CT-Expo preprocessor *)

Module PreprocessorFacts.

Import Preprocessor.

Section WithFiles.

Variable walk : string -> list (string * list string * list string).
Variable dcmread : string -> result FileDataset.

Local Abbreviation visit := (visit dcmread).
Local Abbreviation collect := (collect walk dcmread).
Local Abbreviation candidates := (candidates walk).
Local Abbreviation read_ok := (read_ok walk dcmread).
Local Abbreviation read_failed := (read_failed walk dcmread).
Local Abbreviation extract_dicom_info := (extract_dicom_info walk dcmread).

(** The files read and the failures among the paths [l]. *)
Local Abbreviation oks l :=
  (flat_map (fun file_path =>
     match dcmread file_path with Ok d => [d] | Raise _ => [] end) l).
Local Abbreviation failures l :=
  (flat_map (fun file_path =>
     match dcmread file_path with Ok _ => [] | Raise e => [(file_path, e)] end) l).
Local Abbreviation report l :=
  (map (fun pe : string * exception => could_not_read (fst pe) (snd pe)) l).

(** The inner loop: a read failure adds a line and the loop goes on. *)
Lemma visit_files root files : forall rows out,
  fold_left (visit root) files (rows, out) =
  (rows ++ map dicom_info (oks (map (path_join root) (filter is_dicom_file files))),
   out ++ report (failures (map (path_join root) (filter is_dicom_file files)))).
Proof.
  induction files as [|file files IH]; intros rows out.
  - cbn. rewrite !app_nil_r. reflexivity.
  - cbn [fold_left filter]. unfold Preprocessor.visit at 2.
    destruct (is_dicom_file file); cbn [negb map flat_map].
    + destruct (dcmread (path_join root file)) as [d|e]; rewrite IH;
        cbn [app map fst snd]; rewrite <- !app_assoc; reflexivity.
    + apply IH.
Qed.

(** The outer loop, over the directories of the walk. *)
Lemma walk_entries entries : forall rows out,
  fold_left
    (fun st (entry : string * list string * list string) =>
       let '(root, _, files) := entry in fold_left (visit root) files st)
    entries (rows, out) =
  (rows ++ map dicom_info (oks (flat_map
     (fun entry : string * list string * list string =>
        let '(root, _, files) := entry in
        map (path_join root) (filter is_dicom_file files)) entries)),
   out ++ report (failures (flat_map
     (fun entry : string * list string * list string =>
        let '(root, _, files) := entry in
        map (path_join root) (filter is_dicom_file files)) entries))).
Proof.
  induction entries as [|[[root dirs] files] entries IH]; intros rows out.
  - cbn. rewrite !app_nil_r. reflexivity.
  - cbn [fold_left flat_map]. rewrite visit_files, IH.
    rewrite !flat_map_app, !map_app, <- !app_assoc. reflexivity.
Qed.

Lemma collect_spec directory :
  collect directory =
  (map dicom_info (read_ok directory), report (read_failed directory)).
Proof. unfold Preprocessor.collect. rewrite walk_entries. reflexivity. Qed.

Lemma oks_failures_length (l : list string) :
  (List.length (oks l) + List.length (failures l) = List.length l)%nat.
Proof.
  induction l as [|p l IH]; [reflexivity|].
  cbn [flat_map]. destruct (dcmread p); rewrite !length_app; cbn [List.length]; lia.
Qed.

(** C7. Every read failure is caught and reported, and the walk goes on
    to the remaining files.  A CSV file is written exactly when a file
    was read, to [output_csv], with one data row per file read; when no
    file was read nothing is written and the run says so. *)
Theorem batch_collector_outcome directory output_csv :
  let r := extract_dicom_info directory output_csv in
  (List.length (read_ok directory) + List.length (read_failed directory)
   = List.length (candidates directory))%nat /\
  (exists last, stdout r = report (read_failed directory) ++ [last]) /\
  (written r <> None <-> read_ok directory <> []) /\
  (forall path file, written r = Some (path, file) ->
     path = output_csv /\
     List.length (data_rows file) = List.length (read_ok directory)) /\
  (read_ok directory = [] ->
     written r = None /\
     stdout r = report (read_failed directory)
                ++ ["No valid DICOM files were found. CSV file not created."]).
Proof.
  cbv zeta. unfold Preprocessor.extract_dicom_info. rewrite collect_spec.
  split; [apply oks_failures_length|].
  destruct (read_ok directory) as [|d ds]; cbn [map stdout written].
  - split; [eexists; reflexivity|]. split; [split; intros H; now elim H|].
    split; [discriminate|]. intros _. split; reflexivity.
  - split; [eexists; reflexivity|]. split; [split; discriminate|].
    split; [|discriminate]. intros path file [= <- <-]. split; [reflexivity|].
    cbn [data_rows List.length]. rewrite !length_map. reflexivity.
Qed.

End WithFiles.

End PreprocessorFacts.

(** ** The properties on the sample study *)

Module Scenarios.

Import Visualizer Preprocessor Samples.

Local Open Scope float_scope.

(** C1 on three slices 2 mm apart from z = 100, with a scout view among
    the files: the positions are 100, 98 and 96. *)
Lemma positions_are_cumulative_witness :
  accumulate disk study_files = Ok study_data /\
  (exists x y z0 ts,
     ImagePositionPatient (slice 2 100 200 0.5) = Some (x, y, z0) /\
     map SliceThickness [slice 2 100 200 0.5; slice 2 100 200 0.5] = map Some ts /\
     map fst study_data = z0 :: cumulative z0 ts) /\
  accumulate
    (fun f => ds <- disk f ;; Ok (with_spacing (Some 7) ds)) study_files =
  Ok study_data.
Proof.
  split; [reflexivity|].
  destruct (VisualizerFacts.positions_are_cumulative disk study_files study_data
              eq_refl) as [Hpos Hspacing].
  split; [exact Hpos | exact (Hspacing (fun _ _ => Some 7))].
Defined.

(** C4 on the same slices: every exposure is 200 * 0.5. *)
Lemma exposure_is_product_witness :
  accumulate disk study_files = Ok study_data /\
  Forall2 exposure_of (slice_records disk study_files) (map snd study_data) /\
  exists out, extract_dicom_data disk study_files = Ok out /\
              Permutation study_data out.
Proof.
  split; [reflexivity|].
  apply (VisualizerFacts.exposure_is_product disk study_files study_data).
  reflexivity.
Defined.

(** C6 on a list whose second file has no [SliceThickness]. *)
Lemma missing_thickness_aborts_witness :
  exists e, extract_dicom_data disk bad_files = Raise e /\
    ((forall f, In f bad_files -> exists d, disk f = Ok d) ->
     is_MissingFieldError e = true).
Proof.
  apply (VisualizerFacts.missing_thickness_aborts disk bad_files
           "study/bad.dcm" slice_no_thickness).
  - right. left. reflexivity.
  - reflexivity.
  - reflexivity.
  - reflexivity.
Defined.

(** C10 on the sample study: three pairs for three slices and a scout. *)
Lemma profile_length_witness :
  extract_dicom_data disk study_files = Ok study_data /\
  List.length study_data = List.length (slice_records disk study_files) /\
  extract_dicom_data disk ["study/scout.dcm"] = Ok [].
Proof.
  split; [reflexivity|]. split.
  - apply (proj2 (proj2 (VisualizerFacts.profile_length disk study_files))).
    reflexivity.
  - apply (proj1 (proj2 (VisualizerFacts.profile_length disk ["study/scout.dcm"]))).
    intros f [<- | []]. exists scout. split; reflexivity.
Defined.

(** C2 on two slices that share a position: the later one comes first. *)
Lemma profile_descending_ties_reversed_witness :
  accumulate disk tie_files = Ok tie_data /\
  exists out,
    extract_dicom_data disk tie_files = Ok out /\
    out = rev (sorted fst PrimFloat.ltb tie_data) /\
    Permutation tie_data out /\
    ((forall a, In a tie_data -> is_nan (fst a) = false) ->
     StronglySorted (fun a b => (fst b <=? fst a) = true) out) /\
    (forall p,
       filter (fun a => fst a =? p) out =
       rev (filter (fun a => fst a =? p) tie_data)).
Proof.
  split; [reflexivity|].
  apply (VisualizerFacts.profile_descending_ties_reversed disk tie_files tie_data).
  reflexivity.
Defined.

(** C2 as stated fails: a slice 2^-60 mm thick has the position of the
    slice before it, and the two pairs come out in the reverse of their
    input order. *)
Lemma ties_not_preserved :
  accumulate disk tie_files = Ok [(100, 100); (100, 50)] /\
  extract_dicom_data disk tie_files = Ok [(100, 50); (100, 100)] /\
  filter (fun a : float * float => fst a =? 100) [(100, 50); (100, 100)] <>
  filter (fun a : float * float => fst a =? 100) [(100, 100); (100, 50)].
Proof.
  split; [reflexivity|]. split; [reflexivity|].
  intros H.
  apply (f_equal (fun l : list (float * float) =>
                    match l with a :: _ => snd a <? 75 | [] => false end)) in H.
  vm_compute in H. discriminate H.
Defined.

(** C3 on the sample scout view. *)
Lemma scout_positions_exact_witness :
  calculate_scout_positions scout = Ok (50, -350, 2).
Proof.
  refine (proj2 (VisualizerFacts.scout_positions_exact scout 400 0 0 50 200
                   eq_refl eq_refl eq_refl _) eq_refl eq_refl eq_refl).
  discriminate.
Defined.

(** C5 on a scout view whose [Rows] is zero. *)
Lemma scout_positions_fail_without_rows_witness :
  exists e, calculate_scout_positions scout_no_rows = Raise e /\
    (Rows scout_no_rows = None -> is_MissingFieldError e = true) /\
    (Rows scout_no_rows = Some 0%Z -> SliceThickness scout_no_rows <> None ->
     ImagePositionPatient scout_no_rows <> None -> e = ZeroDivisionError).
Proof.
  apply (VisualizerFacts.scout_positions_fail_without_rows scout_no_rows).
  right. reflexivity.
Defined.

(** C5 as stated fails: a zero [Rows] raises a [ZeroDivisionError], which
    is not the exception of a missing attribute. *)
Lemma zero_rows_not_missing_field :
  Rows scout_no_rows = Some 0%Z /\
  calculate_scout_positions scout_no_rows = Raise ZeroDivisionError /\
  is_MissingFieldError ZeroDivisionError = false.
Proof. repeat split. Defined.

(** C8 on the same description in two cases, on records that differ in
    every other attribute. *)
Lemma classification_by_description_witness :
  is_scout scout = is_scout scout_lowercase /\ is_scout blank = Ok false.
Proof.
  destruct (VisualizerFacts.classification_by_description scout scout_lowercase)
    as (Hsame & _ & _).
  destruct (VisualizerFacts.classification_by_description blank blank)
    as (_ & Hnone & _).
  split; [apply Hsame | apply Hnone]; reflexivity.
Defined.

(** C9 on the sample scout view of 200 rows and 3 columns. *)
Lemma overlay_extent_witness :
  plot_scoutview_with_modulation scout_pixels scout [(100, 100)] = Ok overlay /\
  exists z_start z_end z_spacing row_sp col_sp,
    calculate_scout_positions scout = Ok (z_start, z_end, z_spacing) /\
    PixelSpacing scout = Some (row_sp, col_sp) /\
    imshow_image overlay = rot90 scout_pixels /\
    imshow_extent overlay =
      (z_start, z_end, 0,
       float_of_int (Z.of_nat (snd (shape scout_pixels))) * col_sp) /\
    plot_positions overlay = map fst [(100, 100)] /\
    plot_intensities overlay = map snd [(100, 100)].
Proof.
  split; [reflexivity|].
  apply (VisualizerFacts.overlay_extent scout_pixels scout [(100, 100)] overlay).
  reflexivity.
Defined.

(** C9 as stated fails: the vertical extent is 3 columns * 0.5 = 1.5,
    not 200 rows * 2.0 = 400. *)
Lemma overlay_vertical_extent_not_rows :
  plot_scoutview_with_modulation scout_pixels scout [(100, 100)] = Ok overlay /\
  calculate_scout_positions scout = Ok (50, -350, 2) /\
  Rows scout = Some 200%Z /\
  imshow_extent overlay = (50, -350, 0, 1.5) /\
  imshow_extent overlay <> (50, -350, 0, float_of_int 200 * 2).
Proof.
  repeat (split; [reflexivity|]).
  intros H.
  apply (f_equal (fun e : float * float * float * float => snd e <? 2)) in H.
  vm_compute in H. discriminate H.
Defined.

(** C7 on a folder of two readable files, a corrupt one and a text file:
    two data rows, one reported failure; and on a folder where nothing
    can be read: no file. *)
Lemma batch_collector_outcome_witness :
  (exists file,
     written (extract_dicom_info tree disk "study" "out.csv")
       = Some ("out.csv"%string, file) /\
     List.length (data_rows file) = 2%nat) /\
  List.length (read_failed tree disk "study") = 1%nat /\
  written (extract_dicom_info broken_tree disk "study" "out.csv") = None.
Proof.
  destruct (PreprocessorFacts.batch_collector_outcome tree disk "study" "out.csv")
    as (_ & _ & _ & Hrows & _).
  destruct (PreprocessorFacts.batch_collector_outcome broken_tree disk "study" "out.csv")
    as (_ & _ & _ & _ & Hnone).
  split; [|split; [reflexivity | apply Hnone; reflexivity]].
  eexists. split; [reflexivity|].
  exact (proj2 (Hrows _ _ eq_refl)).
Defined.

End Scenarios.

(** ** Facts about strings *)

Section StringFacts.

Lemma prefix_app (a b : string) :
  prefix a b = true <-> exists post, b = (a ++ post)%string.
Proof.
  revert b. induction a as [|c a IH]; intros b.
  - split; [intros _; exists b; reflexivity | intros _; destruct b; reflexivity].
  - destruct b as [|d b]; cbn [prefix].
    + split; [discriminate | intros [post H]; discriminate H].
    + destruct (Ascii.ascii_dec c d) as [->|Hcd].
      * rewrite IH. split; intros [post H]; exists post.
        -- cbn. rewrite H. reflexivity.
        -- cbn in H. injection H as H. exact H.
      * split; [discriminate|]. intros [post H]. cbn in H.
        injection H as H _. congruence.
Qed.

Lemma contains_app (sub s : string) :
  contains sub s = true <-> exists pre post, s = (pre ++ sub ++ post)%string.
Proof.
  induction s as [|c s IH]; cbn [contains].
  - destruct (prefix sub "") eqn:E.
    + split; [intros _|reflexivity]. apply prefix_app in E.
      destruct E as [post E]. exists "", post. exact E.
    + split; [discriminate|]. intros (pre & post & H).
      destruct pre; [|discriminate H]. cbn in H.
      assert (prefix sub "" = true) by (apply prefix_app; exists post; exact H).
      congruence.
  - destruct (prefix sub (String c s)) eqn:E.
    + split; [intros _|reflexivity]. apply prefix_app in E.
      destruct E as [post E]. exists "", post. exact E.
    + rewrite IH. split; intros (pre & post & H).
      * exists (String c pre), post. cbn. rewrite H. reflexivity.
      * destruct pre as [|d pre].
        -- cbn in H.
           assert (prefix sub (String c s) = true)
             by (apply prefix_app; exists post; exact H).
           congruence.
        -- cbn in H. injection H as _ H. exists pre, post. exact H.
Qed.

Lemma lower_app (a b : string) : lower (a ++ b) = (lower a ++ lower b)%string.
Proof. induction a as [|c a IH]; cbn; [reflexivity | rewrite IH; reflexivity]. Qed.

End StringFacts.

(** ** More facts about [sorted] *)

Section SortedOrdered.

Context {A K : Type}.
Variable key : A -> K.
Variable lt : K -> K -> bool.

Lemma insort_last (x : A) (l : list A) :
  Forall (fun y => lt (key y) (key x) = true) l ->
  Visualizer.insort key lt x l = l ++ [x].
Proof.
  induction 1 as [|y l Hy _ IH]; cbn [Visualizer.insort app]; [reflexivity|].
  rewrite Hy, IH. reflexivity.
Qed.

(** A list that steps down strictly at every element is sorted into its
    reverse. *)
Lemma sorted_descending (l : list A) :
  StronglySorted (fun a b => lt (key b) (key a) = true) l ->
  Visualizer.sorted key lt l = rev l.
Proof.
  induction 1 as [|x l _ IH Hx]; [reflexivity|].
  cbn [Visualizer.sorted fold_right rev]. fold (Visualizer.sorted key lt l).
  rewrite IH. apply insort_last.
  apply Forall_forall. intros y Hy. apply in_rev in Hy.
  rewrite Forall_forall in Hx. apply Hx, Hy.
Qed.

Hypothesis lt_asym : forall x y, lt x y = true -> lt y x = false.

(** A list that steps up strictly at every element is left as it is. *)
Lemma sorted_ascending (l : list A) :
  StronglySorted (fun a b => lt (key a) (key b) = true) l ->
  Visualizer.sorted key lt l = l.
Proof.
  induction 1 as [|x l _ IH Hx]; [reflexivity|].
  cbn [Visualizer.sorted fold_right]. fold (Visualizer.sorted key lt l).
  rewrite IH. destruct l as [|y l]; [reflexivity|].
  cbn [Visualizer.insort]. inversion Hx as [|? ? Hxy _]; subst.
  rewrite (lt_asym _ _ Hxy). reflexivity.
Qed.

End SortedOrdered.

(** ** More on the profile, the classifier and the plot *)

Module ProfileFacts.

Import Visualizer Inputs.

(** [with_position] leaves a record that already has that position as it
    is, and never changes what [is_scout] says. *)
Lemma with_position_same ds : with_position (ImagePositionPatient ds) ds = ds.
Proof. destruct ds; reflexivity. Qed.

Section WithFiles.

Variable dcmread : string -> result FileDataset.

Local Abbreviation loop_body := (loop_body dcmread).
Local Abbreviation for_each := (for_each dcmread).
Local Abbreviation accumulate := (accumulate dcmread).
Local Abbreviation extract_dicom_data := (extract_dicom_data dcmread).
Local Abbreviation not_scout_file := (not_scout_file dcmread).

(** A scout file leaves the state of the loop as it was. *)
Lemma loop_body_scout st file :
  not_scout_file file = false -> loop_body st file = Ok st.
Proof.
  unfold Inputs.not_scout_file, Visualizer.loop_body. destruct st as [data cur].
  destruct (dcmread file) as [ds|]; [|discriminate]. cbn [bind].
  destruct (is_scout ds) as [[|]|]; [reflexivity | discriminate | discriminate].
Qed.

Lemma for_each_scouts files : forall st,
  (forall f, In f files -> not_scout_file f = false) ->
  for_each st files = Ok st.
Proof.
  induction files as [|f files IH]; intros st H; [reflexivity|].
  cbn [Visualizer.for_each]. rewrite loop_body_scout by (apply H; left; reflexivity).
  cbn [bind]. apply IH. intros g Hg. apply H. right. exact Hg.
Qed.

Lemma for_each_app files1 files2 : forall st,
  for_each st (files1 ++ files2) =
  (st' <- for_each st files1 ;; for_each st' files2).
Proof.
  induction files1 as [|f files1 IH]; intros st; [reflexivity|].
  cbn [app Visualizer.for_each]. destruct (loop_body st f); cbn [bind]; [apply IH | reflexivity].
Qed.

(** Once the position is set, [ImagePositionPatient] is not read again. *)
Lemma for_each_position
  (repos : string -> FileDataset -> option (float * float * float)) files :
  forall data p,
    Visualizer.for_each
      (fun g => d <- dcmread g ;; Ok (with_position (repos g d) d))
      (data, Some p) files =
    for_each (data, Some p) files.
Proof.
  induction files as [|f files IH]; intros data p; [reflexivity|].
  cbn [Visualizer.for_each]. unfold Visualizer.loop_body.
  destruct (dcmread f) as [ds|e]; cbn [bind]; [|reflexivity].
  change (is_scout (with_position (repos f ds) ds)) with (is_scout ds).
  destruct (is_scout ds) as [[|]|e]; cbn [bind]; [apply IH | | reflexivity].
  change (SliceThickness (with_position (repos f ds) ds)) with (SliceThickness ds).
  change (XRayTubeCurrent (with_position (repos f ds) ds)) with (XRayTubeCurrent ds).
  change (RevolutionTime (with_position (repos f ds) ds)) with (RevolutionTime ds).
  destruct (SliceThickness ds); cbn [attr bind]; [|reflexivity].
  destruct (XRayTubeCurrent ds); cbn [attr bind]; [|reflexivity].
  destruct (RevolutionTime ds); cbn [attr bind]; [apply IH | reflexivity].
Qed.

End WithFiles.

Section Profile.

Variable dcmread : string -> result FileDataset.

Local Abbreviation loop_body := (loop_body dcmread).
Local Abbreviation for_each := (for_each dcmread).
Local Abbreviation accumulate := (accumulate dcmread).
Local Abbreviation extract_dicom_data := (extract_dicom_data dcmread).
Local Abbreviation not_scout_file := (not_scout_file dcmread).

(** X3. Only the first slice record gives its [ImagePositionPatient]:
    whatever position the later files carry, the result is the same. *)
Theorem later_positions_unused pre file rest ds
  (repos : string -> FileDataset -> option (float * float * float)) :
  (forall g, In g pre -> not_scout_file g = false) ->
  dcmread file = Ok ds ->
  is_scout ds = Ok false ->
  repos file ds = ImagePositionPatient ds ->
  Visualizer.extract_dicom_data
    (fun g => d <- dcmread g ;; Ok (with_position (repos g d) d))
    (pre ++ file :: rest) =
  extract_dicom_data (pre ++ file :: rest).
Proof.
  intros Hpre Hfile Hscout Hrepos.
  unfold Visualizer.extract_dicom_data, Visualizer.accumulate. f_equal. f_equal.
  rewrite !for_each_app.
  rewrite (for_each_scouts dcmread pre _ Hpre).
  assert (Visualizer.for_each
            (fun g => d <- dcmread g ;; Ok (with_position (repos g d) d))
            ([], None) pre = Ok ([], None)) as ->.
  { clear Hfile Hscout Hrepos. induction pre as [|g pre IH]; [reflexivity|].
    cbn [Visualizer.for_each]. unfold Visualizer.loop_body.
    assert (not_scout_file g = false) as Hg by (apply Hpre; left; reflexivity).
    unfold Inputs.not_scout_file in Hg.
    destruct (dcmread g) as [d|]; [|discriminate]. cbn [bind].
    change (is_scout (with_position (repos g d) d)) with (is_scout d).
    destruct (is_scout d) as [[|]|]; [|discriminate|discriminate].
    cbn [bind]. apply IH. intros h Hh. apply Hpre. right. exact Hh. }
  cbn [bind Visualizer.for_each].
  assert (Visualizer.loop_body
            (fun g => d <- dcmread g ;; Ok (with_position (repos g d) d))
            ([], None) file = loop_body ([], None) file) as ->.
  { unfold Visualizer.loop_body. rewrite Hfile. cbn [bind].
    rewrite Hrepos, with_position_same. reflexivity. }
  destruct (loop_body ([], None) file) as [[data cur]|e] eqn:Hb; cbn [bind]; [|reflexivity].
  assert (exists p, cur = Some p) as [p ->].
  { revert Hb. unfold Visualizer.loop_body. rewrite Hfile. cbn [bind].
    rewrite Hscout. cbn [bind].
    destruct (SliceThickness ds); cbn [attr bind]; [|discriminate].
    destruct (ImagePositionPatient ds); cbn [attr bind]; [|discriminate].
    destruct (XRayTubeCurrent ds); cbn [attr bind]; [|discriminate].
    destruct (RevolutionTime ds); cbn [attr bind]; [|discriminate].
    intros [= <- <-]. eexists. reflexivity. }
  apply for_each_position.
Qed.

(** X4. A list of positions that already steps down strictly is returned
    in input order, and one that steps up strictly is returned reversed. *)
Theorem ordered_profile files data :
  accumulate files = Ok data ->
  (StronglySorted (fun a b => (fst b <? fst a)%float = true) data ->
   extract_dicom_data files = Ok data) /\
  (StronglySorted (fun a b => (fst a <? fst b)%float = true) data ->
   extract_dicom_data files = Ok (rev data)).
Proof.
  intros H. unfold Visualizer.extract_dicom_data. rewrite H. cbn [bind].
  split; intros Hs.
  - rewrite (sorted_descending fst PrimFloat.ltb data Hs), rev_involutive. reflexivity.
  - rewrite (sorted_ascending fst PrimFloat.ltb ltb_asym data Hs). reflexivity.
Qed.

End Profile.

(** X1. [is_scout] says yes exactly when the lowered description holds
    one of the two marker phrases somewhere; so a description that holds a
    marker in any letter case, with any text around it, is a scout view. *)
Theorem scout_iff_marker ds :
  (is_scout ds = Ok true <->
   exists s pre post,
     SeriesDescription ds = Some s /\
     (lower s = (pre ++ "scout face" ++ post)%string \/
      lower s = (pre ++ "profil" ++ post)%string)) /\
  (forall pre marker post,
     lower marker = "scout face" \/ lower marker = "profil" ->
     SeriesDescription ds = Some (pre ++ marker ++ post)%string ->
     is_scout ds = Ok true).
Proof.
  assert (is_scout ds = Ok true <->
          exists s pre post,
            SeriesDescription ds = Some s /\
            (lower s = (pre ++ "scout face" ++ post)%string \/
             lower s = (pre ++ "profil" ++ post)%string)) as Hiff.
  { unfold is_scout, is_scout_try.
    destruct (SeriesDescription ds) as [s|]; cbn [attr bind].
    - split.
      + intros [= H]. apply orb_true_iff in H.
        destruct H as [H | H]; apply contains_app in H;
          destruct H as (pre & post & H); exists s, pre, post; auto.
      + intros (s' & pre & post & [= <-] & [H | H]); f_equal;
          apply orb_true_iff; [left | right]; apply contains_app; eauto.
    - split; [discriminate | intros (s & _ & _ & H & _); discriminate H]. }
  split; [exact Hiff|].
  intros pre marker post Hm Hs. apply Hiff.
  exists (pre ++ marker ++ post)%string, (lower pre), (lower post).
  split; [exact Hs|]. rewrite !lower_app.
  destruct Hm as [-> | ->]; [left | right]; reflexivity.
Qed.

(** X5. A figure is drawn exactly when the scout record has its
    thickness, its position, a non-zero [Rows] and its [PixelSpacing], and
    the profile is not empty; on an empty profile the call always raises,
    the [ValueError] of the unpacking when the record is complete. *)
Theorem plot_succeeds_iff scoutview ds intensity_data :
  ((exists fig,
      plot_scoutview_with_modulation scoutview ds intensity_data = Ok fig) <->
   SliceThickness ds <> None /\ ImagePositionPatient ds <> None /\
   (exists r, Rows ds = Some r /\ r <> 0%Z) /\
   PixelSpacing ds <> None /\ intensity_data <> []) /\
  (exists e, plot_scoutview_with_modulation scoutview ds [] = Raise e /\
     (SliceThickness ds <> None -> ImagePositionPatient ds <> None ->
      (exists r, Rows ds = Some r /\ r <> 0%Z) -> PixelSpacing ds <> None ->
      exists msg, e = ValueError msg)).
Proof.
  unfold plot_scoutview_with_modulation, calculate_scout_positions, truediv.
  destruct (SliceThickness ds) as [L|]; cbn [attr bind].
  2:{ split; [split; [intros [? [=]] | intros (H & _); now elim H]|].
      eexists. split; [reflexivity|]. intros H; now elim H. }
  destruct (ImagePositionPatient ds) as [ipp|]; cbn [attr bind].
  2:{ split; [split; [intros [? [=]] | intros (_ & H & _); now elim H]|].
      eexists. split; [reflexivity|]. intros _ H; now elim H. }
  destruct (Rows ds) as [r|]; cbn [attr bind].
  2:{ split; [split; [intros [? [=]] | intros (_ & _ & (r & [=] & _) & _)]|].
      eexists. split; [reflexivity|]. intros _ _ (r & [=] & _). }
  destruct (Z.eqb_spec r 0) as [->|Hr]; cbn [bind].
  { split; [split; [intros [? [=]] | intros (_ & _ & (r & [= <-] & H) & _); now elim H]|].
    eexists. split; [reflexivity|]. intros _ _ (r & [= <-] & H). now elim H. }
  destruct (PixelSpacing ds) as [[a b]|]; cbn [attr bind].
  2:{ split; [split; [intros [? [=]] | intros (_ & _ & _ & H & _); now elim H]|].
      eexists. split; [reflexivity|]. intros _ _ _ H; now elim H. }
  split.
  - destruct intensity_data as [|pr l]; cbn [unzip_pairs bind].
    + split; [intros [? [=]] | intros (_ & _ & _ & _ & H); now elim H].
    + split; [intros _ | intros _; eexists; reflexivity].
      repeat split; try discriminate. exists r. split; [reflexivity | exact Hr].
  - cbn [unzip_pairs bind]. eexists. split; [reflexivity|]. intros. eexists. reflexivity.
Qed.

End ProfileFacts.

(** ** More on the CT-Expo preprocessor *)

Module CollectorFacts.

Import Preprocessor.

Section WithFiles.

Variable walk : string -> list (string * list string * list string).

(** X11. The CSV file has the eight columns of [dicom_info], in that
    order, and one row per file read, in the order of the walk; a row
    holds the file's own values, each in its column, with [Unknown] for
    an attribute the file does not have. *)
Theorem csv_rows dcmread directory output_csv path file :
  written (extract_dicom_info walk dcmread directory output_csv)
    = Some (path, file) ->
  header file =
    ["PatientID"; "StudyDate"; "Modality"; "KVP"; "XRayTubeCurrent";
     "ExposureTime"; "SliceThickness"; "Manufacturer"] /\
  data_rows file =
    map (fun d =>
           [get VStr (PatientID d); get VStr (StudyDate d);
            get VStr (Modality d); get VFloat (KVP d);
            get VInt (XRayTubeCurrent d); get VInt (ExposureTime d);
            get VFloat (SliceThickness d); get VStr (Manufacturer d)])
        (read_ok walk dcmread directory).
Proof.
  unfold extract_dicom_info. rewrite PreprocessorFacts.collect_spec.
  destruct (read_ok walk dcmread directory) as [|d ds]; cbn [map written];
    [discriminate|].
  intros [= _ <-]. cbn [header data_rows]. split; [reflexivity|].
  f_equal. rewrite map_map. apply map_ext. intros d'. reflexivity.
Qed.

End WithFiles.

End CollectorFacts.

(** ** The further properties on the sample study *)

Module FolderScenarios.

Import Visualizer Preprocessor Inputs Samples.

Local Open Scope float_scope.

(** X3 on the sample study, every later slice moved to z = 40. *)
Lemma later_positions_unused_witness :
  extract_dicom_data
    (fun g =>
       d <- Samples.disk g ;;
       Ok (with_position
             (if String.eqb g "study/1.dcm" then ImagePositionPatient d
              else ImagePositionPatient Folders.misplaced_slice) d))
    (["study/scout.dcm"] ++ "study/1.dcm" :: ["study/2.dcm"; "study/3.dcm"]) =
  extract_dicom_data Samples.disk
    (["study/scout.dcm"] ++ "study/1.dcm" :: ["study/2.dcm"; "study/3.dcm"]).
Proof.
  apply (ProfileFacts.later_positions_unused Samples.disk
           ["study/scout.dcm"] "study/1.dcm" ["study/2.dcm"; "study/3.dcm"]
           (slice 2 100 200 0.5)
           (fun g d => if String.eqb g "study/1.dcm" then ImagePositionPatient d
                       else ImagePositionPatient Folders.misplaced_slice)).
  - intros g [<- | []]. reflexivity.
  - reflexivity.
  - reflexivity.
  - reflexivity.
Defined.

(** X4 on the sample study: 100, 98, 96 come back in input order. *)
Lemma ordered_profile_witness :
  extract_dicom_data Samples.disk study_files = Ok study_data.
Proof.
  apply (proj1 (ProfileFacts.ordered_profile Samples.disk study_files study_data
                  eq_refl)).
  repeat constructor.
Defined.

(** X11 on the sample tree: the rows of [1.dcm] and [2.dcm]. *)
Lemma csv_rows_witness :
  exists file,
    written (extract_dicom_info tree Samples.disk "study" "out.csv")
      = Some ("out.csv"%string, file) /\
    header file =
      ["PatientID"; "StudyDate"; "Modality"; "KVP"; "XRayTubeCurrent";
       "ExposureTime"; "SliceThickness"; "Manufacturer"]%string /\
    data_rows file =
      map (fun d =>
             [get VStr (PatientID d); get VStr (StudyDate d);
              get VStr (Modality d); get VFloat (KVP d);
              get VInt (XRayTubeCurrent d); get VInt (ExposureTime d);
              get VFloat (SliceThickness d); get VStr (Manufacturer d)])
          (read_ok tree Samples.disk "study").
Proof.
  eexists. split; [reflexivity|].
  apply (CollectorFacts.csv_rows tree Samples.disk "study" "out.csv" "out.csv").
  reflexivity.
Defined.

End FolderScenarios.

(** ** When a profile is returned *)

Module ProfileSuccess.

Import Visualizer.

Lemma trace_complete p slices out :
  trace p slices out ->
  Forall (fun ds => SliceThickness ds <> None /\ XRayTubeCurrent ds <> None /\
                    RevolutionTime ds <> None) slices /\
  (p = None ->
   match slices with
   | [] => True
   | first :: _ => ImagePositionPatient first <> None
   end).
Proof.
  induction 1 as [p | ds rest out t x y z mAs Ht Hi (tc & rt & Hc & Hr & _) _ [IH _]
                    | p ds rest out t mAs Ht (tc & rt & Hc & Hr & _) _ [IH _]].
  - split; [constructor | intros _; exact I].
  - split; [|intros _; congruence].
    constructor; [|exact IH]. repeat split; congruence.
  - split; [|discriminate].
    constructor; [|exact IH]. repeat split; congruence.
Qed.

Section WithFiles.

Variable dcmread : string -> result FileDataset.

Lemma for_each_reads files : forall st st',
  for_each dcmread st files = Ok st' ->
  forall f, In f files -> exists ds, dcmread f = Ok ds.
Proof.
  induction files as [|g files IH]; intros st st' H f Hin; [destruct Hin|].
  cbn [for_each] in H.
  destruct (loop_body dcmread st g) as [st1|] eqn:Hb; cbn [bind] in H; [|discriminate].
  destruct Hin as [<- | Hin]; [|exact (IH _ _ H f Hin)].
  destruct st as [data cur].
  apply VisualizerFacts.loop_body_inv in Hb. destruct Hb as (ds & Hr & _).
  exists ds. exact Hr.
Qed.

(** X14. [extract_dicom_data] returns a profile exactly when every file
    of the list can be read, every slice record has its thickness, tube
    current and revolution time, and the first slice record has its
    position; otherwise it raises. *)
Theorem profile_returned_iff files :
  (exists out, extract_dicom_data dcmread files = Ok out) <->
  (forall f, In f files -> exists ds, dcmread f = Ok ds) /\
  Forall (fun ds => SliceThickness ds <> None /\ XRayTubeCurrent ds <> None /\
                    RevolutionTime ds <> None) (slice_records dcmread files) /\
  match slice_records dcmread files with
  | [] => True
  | first :: _ => ImagePositionPatient first <> None
  end.
Proof.
  split.
  - intros [out H]. apply VisualizerFacts.extract_inv in H.
    destruct H as (data & H & _). unfold accumulate in H.
    destruct (for_each dcmread ([], None) files) as [[d c]|] eqn:Hf;
      cbn [bind] in H; [|discriminate].
    split; [exact (for_each_reads _ _ _ Hf)|].
    apply VisualizerFacts.for_each_trace in Hf. destruct Hf as (added & _ & Htr).
    apply trace_complete in Htr. destruct Htr as [Hall Hfirst].
    split; [exact Hall | exact (Hfirst eq_refl)].
  - intros (Hread & Hall & Hfirst).
    apply VisualizerFacts.extract_dicom_data_succeeds; assumption.
Qed.

End WithFiles.

End ProfileSuccess.
